(** * ImageCaptionGen: the caption pipeline of [app.py]

    [app.py] is glue over PIL, torch, transformers, Streamlit and Flask.
    The embedding keeps the control flow of the script (the order of the
    library calls, the [with] blocks, the [try]/[except], the Flask route)
    and takes the libraries themselves as an environment [Env]: every
    library call is a function of the hidden library state (caches, random
    number generators, device memory) that returns or raises and leaves a
    new library state.  Every call is recorded in a trace, in program
    order, so that statements on what is invoked, and with which
    arguments, can be made. *)

From Stdlib Require Import List String Ascii ZArith Lia Bool.
Import ListNotations.
Open Scope string_scope.
Open Scope Z_scope.

(** ** Python values *)

(** The exception classes that matter to the script.  [KeyboardInterrupt]
    and [SystemExit] derive from [BaseException] only: [except Exception]
    lets them through. *)
Inductive ExcClass : Type :=
| UnidentifiedImageError
| OSError
| RuntimeError
| ValueError
| IndexError
| BadRequestKeyError
| KeyboardInterrupt
| SystemExit.

Definition is_Exception (c : ExcClass) : bool :=
  match c with
  | KeyboardInterrupt | SystemExit => false
  | _ => true
  end.

(** An exception instance: its class and [str(e)]. *)
Record PyExc : Type := mkExc { exc_class : ExcClass; exc_str : string }.

(** What a call does: it returns a value or raises. *)
Inductive Outcome (A : Type) : Type :=
| Return (a : A)
| Raise (e : PyExc).
Arguments Return {A} a.
Arguments Raise {A} e.

(** An uploaded file (Streamlit's [UploadedFile], werkzeug's
    [FileStorage]): its bytes. *)
Definition File : Type := list Byte.byte.

(** JSON values, as far as [jsonify] needs them here. *)
Inductive JSON : Type :=
| JString (s : string)
| JObject (members : Members)
with Members : Type :=
| MNil
| MCons (key : string) (value : JSON) (rest : Members).

(** A Flask response. *)
Record Response : Type := mkResponse {
  status : Z;
  mimetype : string;
  body : JSON
}.

(** A Flask request: [request.files], a multi-dict from field names to
    files. *)
Record Request : Type := mkRequest { files : list (string * File) }.

(** What Streamlit has put on the page. *)
Inductive Element : Type :=
| El_image (image : File) (caption : string)
| El_write (text : string)
| El_button (label : string)
| El_spinner (text : string)
| El_markdown (body : string) (unsafe_allow_html : bool)
| El_error (body : string).

Inductive ModelName : Type := ConvNext | Blip.

Section App.

(** Decoded images, preprocessed inputs ([BatchFeature]), logits and the
    hidden state of the libraries. *)
Context {Img Tensor Logits LibState : Type}.

(** The result of the classification model's forward pass. *)
Record ImageClassifierOutput : Type := mkOutput { logits : Logits }.

(** One library call, with its arguments. *)
Inductive Call : Type :=
| Call_Image_open (fp : File)
| Call_convert (img : Img) (mode : string)
| Call_processor (m : ModelName) (images : Img) (return_tensors : string)
| Call_to (inputs : Tensor) (dev : string)
| Call_forward (inputs : Tensor) (grad : bool)
| Call_generate (inputs : Tensor) (max_new_tokens num_beams : Z)
    (early_stopping : bool) (grad : bool)
| Call_batch_decode (ids : list (list Z)) (skip_special_tokens : bool).

(** The state a run of the script or of the route works on. *)
Record World : Type := mkWorld {
  lib_state : LibState;
  grad_enabled : bool;
  trace : list Call;
  page : list Element
}.

(** ** The monad of the script: state and exceptions *)

Definition M (A : Type) : Type := World -> Outcome A * World.

Definition ret {A : Type} (a : A) : M A := fun w => (Return a, w).

Definition raise {A : Type} (e : PyExc) : M A := fun w => (Raise e, w).

Definition bind {A B : Type} (m : M A) (k : A -> M B) : M B :=
  fun w =>
    match m w with
    | (Return a, w') => k a w'
    | (Raise e, w') => (Raise e, w')
    end.

Notation "x <- m ;; k" := (bind m (fun x => k))
  (at level 100, m at next level, right associativity).
Notation "m ;;; k" := (bind m (fun _ => k))
  (at level 100, right associativity).

(** [try: body except Exception as e: handler e]. *)
Definition try_except_Exception {A : Type} (body : M A)
  (handler : PyExc -> M A) : M A :=
  fun w =>
    match body w with
    | (Return a, w') => (Return a, w')
    | (Raise e, w') =>
        if is_Exception (exc_class e) then handler e w' else (Raise e, w')
    end.

Definition set_grad (b : bool) (w : World) : World :=
  mkWorld (lib_state w) b (trace w) (page w).

(** [with torch.no_grad(): body]: gradient tracking is off inside the
    block and set back on the way out, also when the block raises. *)
Definition torch_no_grad {A : Type} (body : M A) : M A :=
  fun w =>
    let prev := grad_enabled w in
    let (r, w') := body (set_grad false w) in
    (r, set_grad prev w').

(** A library call: it runs on the library state and is recorded. *)
Definition lib_call {A : Type} (c : bool -> Call)
  (f : LibState -> Outcome A * LibState) : M A :=
  fun w =>
    let (r, s) := f (lib_state w) in
    (r, mkWorld s (grad_enabled w) (trace w ++ [c (grad_enabled w)]) (page w)).

(** ** The libraries and the module's globals *)

Record Env : Type := mkEnv {
  cuda_is_available : bool;
  Image_open : File -> LibState -> Outcome Img * LibState;
  Image_convert : Img -> string -> LibState -> Outcome Img * LibState;
  convnext_processor : Img -> string -> LibState -> Outcome Tensor * LibState;
  blip_processor : Img -> string -> LibState -> Outcome Tensor * LibState;
  BatchFeature_to : Tensor -> string -> LibState -> Outcome Tensor * LibState;
  convnext_model :
    Tensor -> LibState -> Outcome ImageClassifierOutput * LibState;
  blip_model_generate :
    Tensor -> Z -> Z -> bool -> LibState -> Outcome (list (list Z)) * LibState;
  blip_processor_batch_decode :
    list (list Z) -> bool -> LibState -> Outcome (list string) * LibState;
  str_upper : string -> string
}.

Variable env : Env.

(** [device = "cuda" if torch.cuda.is_available() else "cpu"] *)
Definition device : string :=
  if cuda_is_available env then "cuda" else "cpu".

(** ** Streamlit *)

Definition show (e : Element) : M unit :=
  fun w =>
    (Return tt,
     mkWorld (lib_state w) (grad_enabled w) (trace w) (page w ++ [e])).

Definition st_write (text : string) : M unit := show (El_write text).

Definition st_markdown (body : string) (unsafe_allow_html : bool) : M unit :=
  show (El_markdown body unsafe_allow_html).

Definition st_error (body : string) : M unit := show (El_error body).

(** [st.button] draws the button and returns whether it was clicked. *)
Definition st_button (label : string) (clicked : bool) : M bool :=
  show (El_button label) ;;; ret clicked.

(** The page without its element number [i]. *)
Definition remove_at (i : nat) (p : list Element) : list Element :=
  firstn i p ++ skipn (S i) p.

Definition set_page (p : list Element) (w : World) : World :=
  mkWorld (lib_state w) (grad_enabled w) (trace w) p.

(** [with st.spinner(text): body]: the spinner takes the next slot of the
    page while the block runs and the slot is cleared on the way out, also
    when the block raises. *)
Definition st_spinner {A : Type} (text : string) (body : M A) : M A :=
  fun w =>
    let slot := List.length (page w) in
    let (r, w') := body (set_page (page w ++ [El_spinner text]) w) in
    (r, set_page (remove_at slot (page w')) w').

(** ** The functions of [app.py] *)

(** [l[0]] *)
Definition getitem0 {A : Type} (l : list A) : M A :=
  match l with
  | x :: _ => ret x
  | [] => raise (mkExc IndexError "list index out of range")
  end.

Definition preprocess_image (image : File) : M Tensor :=
  opened <- lib_call (fun _ => Call_Image_open image) (Image_open env image) ;;
  img <- lib_call (fun _ => Call_convert opened "RGB")
           (Image_convert env opened "RGB") ;;
  processed <- lib_call (fun _ => Call_processor ConvNext img "pt")
                 (convnext_processor env img "pt") ;;
  inputs <- lib_call (fun _ => Call_to processed device)
              (BatchFeature_to env processed device) ;;
  ret inputs.

Definition extract_features (image : File) : M Logits :=
  inputs <- preprocess_image image ;;
  torch_no_grad (
    outputs <- lib_call (Call_forward inputs) (convnext_model env inputs) ;;
    ret (logits outputs)).

Definition generate_caption (image : File) (max_length num_beams : Z)
  : M string :=
  opened <- lib_call (fun _ => Call_Image_open image) (Image_open env image) ;;
  image <- lib_call (fun _ => Call_convert opened "RGB")
             (Image_convert env opened "RGB") ;;
  processed <- lib_call (fun _ => Call_processor Blip image "pt")
                 (blip_processor env image "pt") ;;
  blip_inputs <- lib_call (fun _ => Call_to processed device)
                   (BatchFeature_to env processed device) ;;
  torch_no_grad (
    caption_ids <- lib_call
                     (Call_generate blip_inputs max_length num_beams true)
                     (blip_model_generate env blip_inputs max_length
                        num_beams true) ;;
    decoded <- lib_call (fun _ => Call_batch_decode caption_ids true)
                 (blip_processor_batch_decode env caption_ids true) ;;
    caption <- getitem0 decoded ;;
    ret caption).

(** The default arguments of [generate_caption]. *)
Definition default_max_length : Z := 50.
Definition default_num_beams : Z := 5.

Definition caption_heading (formatted_caption : string) : string :=
  "<h2 style='font-weight:bold; font-size:32px; color:#0033cc;'>"
  ++ formatted_caption ++ "</h2>".

(** The body of [if st.button(...):], the click handler. *)
Definition on_click (uploaded_image : File) : M unit :=
  try_except_Exception
    (features <- st_spinner "Extracting features..."
                   (extract_features uploaded_image) ;;
     st_spinner "Generating caption..."
       (caption <- generate_caption uploaded_image default_max_length
                     default_num_beams ;;
        let formatted_caption := str_upper env caption in
        st_markdown (caption_heading formatted_caption) true))
    (fun e => st_error ("An error occurred: " ++ exc_str e)).

(** ** Flask *)

Fixpoint multidict_get (key : string) (d : list (string * File))
  : option File :=
  match d with
  | [] => None
  | (k, v) :: rest => if String.eqb k key then Some v else multidict_get key rest
  end.

(** What werkzeug raises for a key that [request.files] does not have. *)
Definition bad_request_key : PyExc :=
  mkExc BadRequestKeyError
    "400 Bad Request: The browser (or proxy) sent a request that this server could not understand.".

(** [request.files[key]] *)
Definition request_files_getitem (request : Request) (key : string) : M File :=
  match multidict_get key (files request) with
  | Some f => ret f
  | None => raise bad_request_key
  end.

Definition jsonify (d : Members) : Response :=
  mkResponse 200 "application/json" (JObject d).

(** The route [POST /caption]. *)
Definition generate_caption_api (request : Request) : M Response :=
  image <- request_files_getitem request "image" ;;
  caption <- generate_caption image default_max_length default_num_beams ;;
  ret (jsonify (MCons "caption" (JString caption) MNil)).

End App.

(** ** The block under [if uploaded_image is not None:] *)

Section Upload.

Context {Img Tensor Logits LibState : Type}.
Variable env : @Env Img Tensor Logits LibState.

(** What [st.image] does with the upload before it draws it: it decodes
    the file, and raises when the bytes are no image. *)
Variable st_image_decode : File -> LibState -> Outcome unit * LibState.

(** [st.image(image, caption=...)]: the image is on the page when the
    upload decodes; otherwise the exception of the decoder is raised and
    nothing is drawn. *)
Definition st_image (image : File) (caption : string)
  : @M Img Tensor LibState unit :=
  fun w =>
    match st_image_decode image (lib_state w) with
    | (Return _, s) =>
        (Return tt,
         mkWorld s (grad_enabled w) (trace w)
           (page w ++ [El_image image caption]))
    | (Raise e, s) =>
        (Raise e, mkWorld s (grad_enabled w) (trace w) (page w))
    end.

(** Lines 110 to 129 of [app.py]: the image, the prompt, the button and,
    on a click, the click handler.  [clicked] is what the user did with
    the button.  [st.image] is outside the [try]: what it raises leaves
    the block.  The script goes on after this block (the Flask app and
    [app.run]); that part is not modelled. *)
Definition upload_block (uploaded_image : option File) (clicked : bool)
  : @M Img Tensor LibState unit :=
  match uploaded_image with
  | None => ret tt
  | Some image =>
      bind (st_image image "Uploaded Image") (fun _ =>
      bind (st_write "Click below to generate a caption for your image.")
        (fun _ =>
      bind (st_button "GENERATE CAPTION" clicked) (fun pressed =>
      if pressed then on_click env image else ret tt)))
  end.

End Upload.

(** ** Contracts of the libraries *)

Section Contracts.

Context {Img Tensor Logits LibState : Type}.

(** The result of a library call does not depend on the hidden state of
    the library. *)
Definition stateless {A : Type} (f : LibState -> Outcome A * LibState)
  : Prop :=
  forall s s', fst (f s) = fst (f s').

(** No randomness on the caption path: decoding, the captioning model's
    preprocessor and beam search without sampling compute their results
    from their arguments and the loaded weights alone. *)
Record caption_path_stateless (env : @Env Img Tensor Logits LibState)
  : Prop := mkStateless {
  open_stateless : forall fp, stateless (Image_open env fp);
  convert_stateless : forall img mode, stateless (Image_convert env img mode);
  processor_stateless :
    forall img rt, stateless (blip_processor env img rt);
  to_stateless : forall x dev, stateless (BatchFeature_to env x dev);
  generate_stateless :
    forall x n k es, stateless (blip_model_generate env x n k es);
  batch_decode_stateless :
    forall ids skip, stateless (blip_processor_batch_decode env ids skip)
}.

(** The tokens of a returned sequence that come after the [prompt] tokens
    the model starts from. *)
Definition new_tokens (prompt : nat) (seq : list Z) : Z :=
  Z.of_nat (List.length seq) - Z.of_nat prompt.

(** [generate] keeps to [max_new_tokens]: a returned sequence holds at
    most [max_new_tokens] new tokens. *)
Definition honours_max_new_tokens (env : @Env Img Tensor Logits LibState)
  (prompt : nat) : Prop :=
  forall x n k es s ids s',
    blip_model_generate env x n k es s = (Return ids, s') ->
    Forall (fun seq => new_tokens prompt seq <= n) ids.

(** The image in the file can be decoded to an RGB image. *)
Definition decodable (env : @Env Img Tensor Logits LibState) (fp : File)
  (s : LibState) : Prop :=
  exists opened s1 img s2,
    Image_open env fp s = (Return opened, s1) /\
    Image_convert env opened "RGB" s1 = (Return img, s2).

(** The environment with another preprocessor for the classification
    model, and with another one for the captioning model. *)
Definition with_convnext_processor (env : @Env Img Tensor Logits LibState)
  (p : Img -> string -> LibState -> Outcome Tensor * LibState) : Env :=
  mkEnv (cuda_is_available env) (Image_open env) (Image_convert env)
    p (blip_processor env) (BatchFeature_to env)
    (convnext_model env) (blip_model_generate env)
    (blip_processor_batch_decode env) (str_upper env).

Definition with_blip_processor (env : @Env Img Tensor Logits LibState)
  (p : Img -> string -> LibState -> Outcome Tensor * LibState) : Env :=
  mkEnv (cuda_is_available env) (Image_open env) (Image_convert env)
    (convnext_processor env) p (BatchFeature_to env)
    (convnext_model env) (blip_model_generate env)
    (blip_processor_batch_decode env) (str_upper env).

(** The environment with another classification model. *)
Definition with_convnext_model (env : @Env Img Tensor Logits LibState)
  (m : Tensor -> LibState -> Outcome (@ImageClassifierOutput Logits) * LibState)
  : Env :=
  mkEnv (cuda_is_available env) (Image_open env) (Image_convert env)
    (convnext_processor env) (blip_processor env) (BatchFeature_to env)
    m (blip_model_generate env) (blip_processor_batch_decode env)
    (str_upper env).

(** Two calls that return or raise alike and leave the same library
    state; the values returned may differ. *)
Definition same_but_value {A : Type} (r1 r2 : Outcome A * LibState) : Prop :=
  snd r1 = snd r2 /\
  match fst r1, fst r2 with
  | Return _, Return _ => True
  | Raise e1, Raise e2 => e1 = e2
  | _, _ => False
  end.

(** A world with nothing on the page and nothing in the trace. *)
Definition init (s : LibState) : @World Img Tensor LibState :=
  mkWorld s true [] [].

(** The calls a run has added to the trace. *)
Definition new_calls (w w' : @World Img Tensor LibState) : list Call :=
  skipn (List.length (trace w)) (trace w').

End Contracts.

(** ** A small environment to run the functions on *)

Module Demo.

Definition upper_ascii (c : ascii) : ascii :=
  let n := nat_of_ascii c in
  if ((97 <=? n) && (n <=? 122))%nat then ascii_of_nat (n - 32) else c.

Fixpoint upper (s : string) : string :=
  match s with
  | EmptyString => EmptyString
  | String c rest => String (upper_ascii c) (upper rest)
  end.

(** Files that start with the four bytes [89 50 4E 47] decode; the bytes
    after them are the pixels. *)
Definition decode_file (fp : File) : Outcome (list Z) :=
  match fp with
  | Byte.x89 :: Byte.x50 :: Byte.x4e :: Byte.x47 :: pixels =>
      Return (map (fun b => Z.of_N (Byte.to_N b)) pixels)
  | _ => Raise (mkExc UnidentifiedImageError "cannot identify image file")
  end.

(** Every library call counts the library state up by one. *)
Definition open (fp : File) (s : nat) : Outcome (list Z) * nat :=
  (decode_file fp, S s).

Definition convert (img : list Z) (mode : string) (s : nat)
  : Outcome (list Z) * nat :=
  (Return img, S s).

Definition classifier_processor (img : list Z) (rt : string) (s : nat)
  : Outcome (list Z) * nat :=
  (Return (map (fun p => p - 128) img), S s).

Definition captioner_processor (img : list Z) (rt : string) (s : nat)
  : Outcome (list Z) * nat :=
  (Return (map (fun p => p mod 6) img), S s).

Definition to (x : list Z) (dev : string) (s : nat) : Outcome (list Z) * nat :=
  (Return x, S s).

Definition classifier (x : list Z) (s : nat)
  : Outcome (@ImageClassifierOutput (list Z)) * nat :=
  (Return (mkOutput [fold_right Z.add 0 x]), S s).

Definition bos : Z := 100.

(** The device holds eight values; the model copies its input after the
    start token, up to the budget. *)
Definition beam_search (x : list Z) (n k : Z) : Outcome (list (list Z)) :=
  if n <=? 0 then
    Raise (mkExc ValueError "max_new_tokens must be greater than 0")
  else if (8 <? List.length x)%nat then
    Raise (mkExc RuntimeError "CUDA out of memory")
  else Return [bos :: firstn (Z.to_nat n) x].

Definition generate (x : list Z) (n k : Z) (es : bool) (s : nat)
  : Outcome (list (list Z)) * nat :=
  (beam_search x n k, S s).

(** A model that samples: the token it emits depends on the state of the
    random number generator. *)
Definition sample (x : list Z) (n k : Z) (es : bool) (s : nat)
  : Outcome (list (list Z)) * nat :=
  (Return [[bos; Z.of_nat s mod 4]], S s).

Definition vocabulary : list string :=
  ["a"; "dog"; "sitting"; "in"; "the"; "grass"].

Definition word (skip : bool) (t : Z) : list string :=
  if t =? bos then (if skip then [] else ["[BOS]"])
  else [nth (Z.to_nat t) vocabulary "[UNK]"].

Definition decode (skip : bool) (seq : list Z) : string :=
  String.concat " " (flat_map (word skip) seq).

Definition batch_decode (ids : list (list Z)) (skip : bool) (s : nat)
  : Outcome (list string) * nat :=
  (Return (map (decode skip) ids), S s).

Definition env : @Env (list Z) (list Z) (list Z) nat :=
  mkEnv false open convert classifier_processor captioner_processor to
    classifier generate batch_decode upper.

Definition sampling_env : @Env (list Z) (list Z) (list Z) nat :=
  mkEnv false open convert classifier_processor captioner_processor to
    classifier sample batch_decode upper.

(** A classification model with other scores. *)
Definition other_classifier (x : list Z) (s : nat)
  : Outcome (@ImageClassifierOutput (list Z)) * nat :=
  (Return (mkOutput [0; 1]), S s).

Definition png (pixels : list Byte.byte) : File :=
  Byte.x89 :: Byte.x50 :: Byte.x4e :: Byte.x47 :: pixels.

(** A photo of a dog. *)
Definition dog : File :=
  png [Byte.x00; Byte.x01; Byte.x02; Byte.x03; Byte.x04; Byte.x05].

(** A photo too large for the device. *)
Definition large : File :=
  png [Byte.x00; Byte.x01; Byte.x02; Byte.x03; Byte.x04; Byte.x05;
       Byte.x00; Byte.x01; Byte.x02].

(** Not an image. *)
Definition text_file : File := [Byte.x68; Byte.x69].

Definition w0 : @World (list Z) (list Z) nat := mkWorld 0%nat true [] [].

Definition post (fp : File) : Request := mkRequest [("image", fp)].

(** [st.image] decodes the upload as [Image.open] does. *)
Definition draw (fp : File) (s : nat) : Outcome unit * nat :=
  (match decode_file fp with
   | Return _ => Return tt
   | Raise e => Raise e
   end, S s).

(** The world after the features of the dog's photo are extracted, and
    after its caption is generated then. *)
Definition after_features : @World (list Z) (list Z) nat :=
  snd (extract_features env dog w0).

Definition after_caption : @World (list Z) (list Z) nat :=
  snd (generate_caption env dog default_max_length default_num_beams
         after_features).

End Demo.

(** ** The shape of the calls each function makes *)

Section CallShapes.

Context {Img Tensor Logits LibState : Type}.
Variable env : @Env Img Tensor Logits LibState.

(** The calls of the feature path: decoding, the classification model's
    preprocessor, the move to the device, the forward pass without
    gradients. *)
Definition feature_call (c : @Call Img Tensor) : Prop :=
  match c with
  | Call_Image_open _ => True
  | Call_convert _ mode => mode = "RGB"
  | Call_processor m _ rt => m = ConvNext /\ rt = "pt"
  | Call_to _ dev => dev = device env
  | Call_forward _ grad => grad = false
  | Call_generate _ _ _ _ _ => False
  | Call_batch_decode _ _ => False
  end.

(** The calls of the caption path: decoding, the captioning model's
    preprocessor, the move to the device, beam search within the budget
    and without gradients, decoding of the tokens without the special
    ones. *)
Definition caption_call (max_length num_beams : Z) (c : @Call Img Tensor)
  : Prop :=
  match c with
  | Call_Image_open _ => True
  | Call_convert _ mode => mode = "RGB"
  | Call_processor m _ rt => m = Blip /\ rt = "pt"
  | Call_to _ dev => dev = device env
  | Call_forward _ _ => False
  | Call_generate _ n k es grad =>
      n = max_length /\ k = num_beams /\ es = true /\ grad = false
  | Call_batch_decode _ skip => skip = true
  end.

End CallShapes.

(** A model call that tracks no gradients. *)
Definition without_grad {Img Tensor : Type} (c : @Call Img Tensor) : Prop :=
  match c with
  | Call_forward _ grad => grad = false
  | Call_generate _ _ _ _ grad => grad = false
  | _ => True
  end.

(** ** Libraries that fail *)

Module Faulty.

(** A classification model that runs out of memory. *)
Definition classifier (x : list Z) (s : nat)
  : Outcome (@ImageClassifierOutput (list Z)) * nat :=
  (Raise (mkExc RuntimeError "CUDA out of memory"), S s).

Definition classifier_env : @Env (list Z) (list Z) (list Z) nat :=
  with_convnext_model Demo.env classifier.

(** A tokenizer that decodes a batch to no string at all. *)
Definition batch_decode (ids : list (list Z)) (skip : bool) (s : nat)
  : Outcome (list string) * nat :=
  (Return [], S s).

Definition decode_env : @Env (list Z) (list Z) (list Z) nat :=
  mkEnv false Demo.open Demo.convert Demo.classifier_processor
    Demo.captioner_processor Demo.to Demo.classifier Demo.generate
    batch_decode Demo.upper.

(** A world in which gradients are tracked and one in which they are
    not. *)
Definition w_grad : @World (list Z) (list Z) nat := mkWorld 0%nat true [] [].
Definition w_no_grad : @World (list Z) (list Z) nat :=
  mkWorld 0%nat false [] [].

End Faulty.

(** * Properties *)

#[local] Arguments String.append : simpl never.

(** ** Running the pipeline step by step *)

Ltac call_on c := destruct c as [[?|?] ?] eqn:?; simpl.

Ltac call_step :=
  match goal with
  | |- context [Image_open ?en ?a ?s] => call_on (Image_open en a s)
  | |- context [Image_convert ?en ?a ?m ?s] => call_on (Image_convert en a m s)
  | |- context [convnext_processor ?en ?a ?r ?s] =>
      call_on (convnext_processor en a r s)
  | |- context [blip_processor ?en ?a ?r ?s] =>
      call_on (blip_processor en a r s)
  | |- context [BatchFeature_to ?en ?a ?d ?s] =>
      call_on (BatchFeature_to en a d s)
  | |- context [convnext_model ?en ?a ?s] => call_on (convnext_model en a s)
  | |- context [blip_model_generate ?en ?a ?n ?k ?e ?s] =>
      call_on (blip_model_generate en a n k e s)
  | |- context [blip_processor_batch_decode ?en ?a ?k ?s] =>
      call_on (blip_processor_batch_decode en a k s)
  | |- context [match ?l with nil => _ | cons _ _ => _ end] =>
      is_var l; destruct l; simpl
  end.

Ltac unfold_app :=
  unfold generate_caption, extract_features, preprocess_image, bind, lib_call,
    torch_no_grad, getitem0, ret, raise, set_grad, init; simpl.

Ltac tidy := rewrite <- ?app_assoc; simpl; try reflexivity.

Ltac sync c1 c2 P :=
  generalize P;
  destruct c1 as [[?|?] ?], c2 as [[?|?] ?]; simpl;
  let E := fresh "E" in
  intros E; try discriminate E; inversion E; subst; clear E;
  try reflexivity.

Ltac conjs := repeat match goal with |- _ /\ _ => split end.

Section Properties.

Context {Img Tensor Logits LibState : Type}.
Variable env : @Env Img Tensor Logits LibState.

Local Abbreviation World := (@World Img Tensor LibState).

(** [generate_caption] reads the library state only; it adds its calls to
    the trace and leaves the page and the gradient mode as they were. *)
Lemma generate_caption_frame (image : File) (max_length num_beams : Z)
  (w : World) :
  generate_caption env image max_length num_beams w =
  let (r, w0) :=
    generate_caption env image max_length num_beams (init (lib_state w)) in
  (r, mkWorld (lib_state w0) (grad_enabled w) (trace w ++ trace w0) (page w)).
Proof.
  unfold_app.
  repeat (call_step; tidy).
Qed.

Lemma extract_features_frame (image : File) (w : World) :
  extract_features env image w =
  let (r, w0) := extract_features env image (init (lib_state w)) in
  (r, mkWorld (lib_state w0) (grad_enabled w) (trace w ++ trace w0) (page w)).
Proof.
  unfold_app.
  repeat (call_step; tidy).
Qed.

(** ** The page *)

Lemma remove_at_app (p q : list Element) (x : Element) :
  remove_at (List.length p) (p ++ x :: q) = (p ++ q)%list.
Proof.
  unfold remove_at.
  induction p as [|a p IH]; simpl.
  - reflexivity.
  - f_equal. exact IH.
Qed.

Lemma remove_at_last (p : list Element) (x : Element) :
  remove_at (List.length p) (p ++ [x]) = p.
Proof. rewrite remove_at_app. apply app_nil_r. Qed.

(** ** The click handler, in terms of the two functions it calls *)

Lemma on_click_run (image : File) (w : World) :
  on_click env image w =
  match extract_features env image w with
  | (Raise e, w1) =>
      if is_Exception (exc_class e)
      then (Return tt,
            set_page (page w ++ [El_error ("An error occurred: " ++ exc_str e)])
              w1)
      else (Raise e, w1)
  | (Return _, w1) =>
      match
        generate_caption env image default_max_length default_num_beams w1
      with
      | (Return caption, w2) =>
          (Return tt,
           set_page
             (page w ++
              [El_markdown (caption_heading (str_upper env caption)) true])
             w2)
      | (Raise e, w2) =>
          if is_Exception (exc_class e)
          then (Return tt,
                set_page
                  (page w ++ [El_error ("An error occurred: " ++ exc_str e)])
                  w2)
          else (Raise e, w2)
      end
  end.
Proof.
  unfold on_click, try_except_Exception, bind, st_spinner, st_markdown,
    st_error, show, set_page. simpl.
  rewrite (extract_features_frame image w).
  rewrite (extract_features_frame image (mkWorld _ _ _ _)). simpl.
  destruct (extract_features env image (init (lib_state w))) as [[l|e] w1];
    simpl; rewrite remove_at_last.
  - rewrite (generate_caption_frame image _ _ (mkWorld _ _ _ (page w))).
    rewrite (generate_caption_frame image _ _ (mkWorld _ _ _ (_ ++ _))).
    simpl.
    destruct (generate_caption env image default_max_length default_num_beams
                (init (lib_state w1))) as [[c|e] w2]; simpl.
    + rewrite <- (app_assoc (page w)). simpl. rewrite remove_at_app. reflexivity.
    + rewrite remove_at_last. reflexivity.
  - reflexivity.
Qed.

(** ** The route, in terms of [generate_caption] *)

Lemma generate_caption_api_run (request : Request) (image : File) (w : World) :
  multidict_get "image" (files request) = Some image ->
  generate_caption_api env request w =
  match generate_caption env image default_max_length default_num_beams w with
  | (Return caption, w') =>
      (Return (jsonify (MCons "caption" (JString caption) MNil)), w')
  | (Raise e, w') => (Raise e, w')
  end.
Proof.
  intros Hget.
  unfold generate_caption_api, request_files_getitem, bind.
  rewrite Hget. unfold ret.
  destruct (generate_caption env image default_max_length default_num_beams w)
    as [[c|e] w']; reflexivity.
Qed.

(** ** What a successful run has called *)

Lemma new_calls_app (w w' : World) (l : list Call) :
  trace w' = (trace w ++ l)%list -> new_calls w w' = l.
Proof.
  intros E. unfold new_calls. rewrite E. clear E.
  induction (trace w) as [|c t IH]; simpl; [reflexivity | exact IH].
Qed.

Lemma generate_caption_Return_inv (image : File) (max_length num_beams : Z)
  (w : World) (caption : string) (w' : World) :
  generate_caption env image max_length num_beams w = (Return caption, w') ->
  exists opened s1 img s2 processed s3 inputs s4 ids s5 decoded s6,
    Image_open env image (lib_state w) = (Return opened, s1) /\
    Image_convert env opened "RGB" s1 = (Return img, s2) /\
    blip_processor env img "pt" s2 = (Return processed, s3) /\
    BatchFeature_to env processed (device env) s3 = (Return inputs, s4) /\
    blip_model_generate env inputs max_length num_beams true s4
      = (Return ids, s5) /\
    blip_processor_batch_decode env ids true s5 = (Return decoded, s6) /\
    hd_error decoded = Some caption /\
    w' = mkWorld s6 (grad_enabled w)
           (trace w ++
            [Call_Image_open image; Call_convert opened "RGB";
             Call_processor Blip img "pt"; Call_to processed (device env);
             Call_generate inputs max_length num_beams true false;
             Call_batch_decode ids true])
           (page w).
Proof.
  unfold_app.
  repeat call_step; intros H; try discriminate H.
  inversion H; subst; clear H.
  do 12 eexists; conjs; try eassumption; tidy.
Qed.

Lemma extract_features_Return_inv (image : File) (w : World)
  (features : Logits) (w' : World) :
  extract_features env image w = (Return features, w') ->
  exists opened s1 img s2 processed s3 inputs s4 outputs s5,
    Image_open env image (lib_state w) = (Return opened, s1) /\
    Image_convert env opened "RGB" s1 = (Return img, s2) /\
    convnext_processor env img "pt" s2 = (Return processed, s3) /\
    BatchFeature_to env processed (device env) s3 = (Return inputs, s4) /\
    convnext_model env inputs s4 = (Return outputs, s5) /\
    features = logits outputs /\
    w' = mkWorld s5 (grad_enabled w)
           (trace w ++
            [Call_Image_open image; Call_convert opened "RGB";
             Call_processor ConvNext img "pt"; Call_to processed (device env);
             Call_forward inputs false])
           (page w).
Proof.
  unfold_app.
  repeat call_step; intros H; try discriminate H.
  inversion H; subst; clear H.
  do 10 eexists; conjs; try eassumption; tidy.
Qed.

(** ** The outcome of [generate_caption] under stateless libraries *)

Lemma generate_caption_outcome_stateless (image : File)
  (max_length num_beams : Z) (w1 w2 : World) :
  caption_path_stateless env ->
  fst (generate_caption env image max_length num_beams w1) =
  fst (generate_caption env image max_length num_beams w2).
Proof.
  intros [Hopen Hconv Hproc Hto Hgen Hdec].
  rewrite (generate_caption_frame image _ _ w1).
  rewrite (generate_caption_frame image _ _ w2).
  set (s1 := lib_state w1). set (s2 := lib_state w2).
  assert (E : fst (generate_caption env image max_length num_beams (init s1)) =
              fst (generate_caption env image max_length num_beams (init s2))).
  { generalize s1 s2. clear s1 s2 w1 w2. intros s1 s2. unfold_app.
    sync (Image_open env image s1) (Image_open env image s2)
      (Hopen image s1 s2).
    match goal with
    | |- context [Image_convert env ?a ?m ?s] =>
        match goal with
        | |- context [Image_convert env a m ?s'] =>
            assert_fails (constr_eq s s');
            sync (Image_convert env a m s) (Image_convert env a m s')
              (Hconv a m s s')
        end
    end.
    match goal with
    | |- context [blip_processor env ?a ?m ?s] =>
        match goal with
        | |- context [blip_processor env a m ?s'] =>
            assert_fails (constr_eq s s');
            sync (blip_processor env a m s) (blip_processor env a m s')
              (Hproc a m s s')
        end
    end.
    match goal with
    | |- context [BatchFeature_to env ?a ?m ?s] =>
        match goal with
        | |- context [BatchFeature_to env a m ?s'] =>
            assert_fails (constr_eq s s');
            sync (BatchFeature_to env a m s) (BatchFeature_to env a m s')
              (Hto a m s s')
        end
    end.
    match goal with
    | |- context [blip_model_generate env ?a ?n ?k ?e ?s] =>
        match goal with
        | |- context [blip_model_generate env a n k e ?s'] =>
            assert_fails (constr_eq s s');
            sync (blip_model_generate env a n k e s)
              (blip_model_generate env a n k e s') (Hgen a n k e s s')
        end
    end.
    match goal with
    | |- context [blip_processor_batch_decode env ?a ?k ?s] =>
        match goal with
        | |- context [blip_processor_batch_decode env a k ?s'] =>
            assert_fails (constr_eq s s');
            sync (blip_processor_batch_decode env a k s)
              (blip_processor_batch_decode env a k s') (Hdec a k s s')
        end
    end.
    match goal with
    | |- context [match ?l with nil => _ | cons _ _ => _ end] => destruct l
    end; reflexivity. }
  destruct (generate_caption env image max_length num_beams (init s1)),
    (generate_caption env image max_length num_beams (init s2)).
  exact E.
Qed.

(** ** The caption generator *)

(** C1.  Caption generation is deterministic.  When the libraries on the
    caption path compute their results from their arguments and the loaded
    weights alone (no sampling), two calls of [generate_caption] on the
    same image bytes with the same [max_length] and [num_beams] have the
    same outcome, whatever the state of the world each call starts from;
    so has a second call made right after the first. *)
Theorem generate_caption_deterministic (image : File)
  (max_length num_beams : Z) (w w' : World) :
  caption_path_stateless env ->
  fst (generate_caption env image max_length num_beams w) =
  fst (generate_caption env image max_length num_beams w') /\
  fst (generate_caption env image max_length num_beams
         (snd (generate_caption env image max_length num_beams w))) =
  fst (generate_caption env image max_length num_beams w).
Proof.
  intros H. split; apply generate_caption_outcome_stateless; exact H.
Qed.

(** C6, amended.  When [generate_caption] returns a caption, it has made
    six library calls, one of them [generate], called once with
    [max_new_tokens] set to [max_length], with the given [num_beams] and
    with early stopping; the caption is the first string of the decoding
    of the token sequences that call returned, and with a [generate] that
    keeps to [max_new_tokens] each of these sequences holds at most
    [max_length] new tokens, whatever [num_beams] is.  In every run,
    also one that raises, [generate_caption] is through after six library
    calls at most. *)
Theorem generate_caption_within_budget (prompt : nat) (image : File)
  (max_length num_beams : Z) (w : World) (caption : string) (w' : World) :
  honours_max_new_tokens env prompt ->
  generate_caption env image max_length num_beams w = (Return caption, w') ->
  (exists opened img processed inputs ids decoded s s' s'',
     blip_model_generate env inputs max_length num_beams true s
       = (Return ids, s') /\
     blip_processor_batch_decode env ids true s' = (Return decoded, s'') /\
     hd_error decoded = Some caption /\
     new_calls w w' =
       [Call_Image_open image; Call_convert opened "RGB";
        Call_processor Blip img "pt"; Call_to processed (device env);
        Call_generate inputs max_length num_beams true false;
        Call_batch_decode ids true] /\
     Forall (fun seq => new_tokens prompt seq <= max_length) ids) /\
  (forall (image0 : File) (n k : Z) (w0 : World),
     (List.length
        (new_calls w0 (snd (generate_caption env image0 n k w0))) <= 6)%nat).
Proof.
  intros Hlib Hrun. split.
  - apply generate_caption_Return_inv in Hrun.
    destruct Hrun as (opened & s1 & img & s2 & processed & s3 & inputs & s4
                      & ids & s5 & decoded & s6 & _ & _ & _ & _ & Hgen
                      & Hdec & Hhd & Hw).
    exists opened, img, processed, inputs, ids, decoded, s4, s5, s6.
    conjs; try assumption.
    + apply new_calls_app. rewrite Hw. reflexivity.
    + exact (Hlib _ _ _ _ _ _ _ Hgen).
  - intros image0 n k w0. unfold_app.
    repeat call_step;
      (erewrite new_calls_app
         by (simpl; rewrite <- ?app_assoc; simpl; reflexivity));
      simpl; lia.
Qed.

(** ** The route [POST /caption] *)

(** C2, amended.  For a request whose field [image] holds a file on which
    [generate_caption], called with the defaults, returns a caption, the
    route's handler has run that call (decoding that file first, which
    succeeded) and returns the 200 response whose JSON body is the object
    with the single key [caption] mapped to that caption. *)
Theorem generate_caption_api_success (request : Request) (image : File)
  (w : World) (caption : string) (w' : World) :
  multidict_get "image" (files request) = Some image ->
  generate_caption env image default_max_length default_num_beams w
    = (Return caption, w') ->
  generate_caption_api env request w =
    (Return (mkResponse 200 "application/json"
               (JObject (MCons "caption" (JString caption) MNil))), w') /\
  decodable env image (lib_state w) /\
  exists calls, new_calls w w' = Call_Image_open image :: calls.
Proof.
  intros Hget Hrun. split; [|split].
  - rewrite (generate_caption_api_run request image w Hget), Hrun.
    reflexivity.
  - apply generate_caption_Return_inv in Hrun.
    destruct Hrun as (opened & s1 & img & s2 & _ & _ & _ & _ & _ & _ & _ & _
                      & Hopen & Hconv & _).
    exists opened, s1, img, s2. split; assumption.
  - apply generate_caption_Return_inv in Hrun.
    destruct Hrun as (opened & s1 & img & s2 & x & s3 & y & s4 & ids & s5
                      & dec & s6 & _ & _ & _ & _ & _ & _ & _ & Hw).
    eexists. apply new_calls_app. rewrite Hw. simpl. reflexivity.
Qed.

(** C3.  The handler has no error boundary.  When [Image.open] raises on
    the file of the field [image], the same exception leaves the handler:
    there is no response, and nothing was called after [Image.open].  So
    does whatever else [generate_caption] raises. *)
Theorem generate_caption_api_propagates (request : Request) (image : File)
  (w : World) (e : PyExc) (s' : LibState) :
  multidict_get "image" (files request) = Some image ->
  Image_open env image (lib_state w) = (Raise e, s') ->
  generate_caption_api env request w =
    (Raise e,
     mkWorld s' (grad_enabled w) (trace w ++ [Call_Image_open image]) (page w))
  /\
  (forall e' w',
     generate_caption env image default_max_length default_num_beams w
       = (Raise e', w') ->
     generate_caption_api env request w = (Raise e', w')).
Proof.
  intros Hget Hopen. split.
  - rewrite (generate_caption_api_run request image w Hget).
    unfold_app. rewrite Hopen. reflexivity.
  - intros e' w' Hrun.
    rewrite (generate_caption_api_run request image w Hget), Hrun.
    reflexivity.
Qed.

(** C10.  The handler looks the field [image] up before anything else.
    For a request without that field the lookup raises, the handler
    returns no response and leaves the world as it was: no library call
    was made.  Any call of [generate_caption] would have left its
    [Image.open] in the trace. *)
Theorem generate_caption_api_missing_field (request : Request) (w : World) :
  multidict_get "image" (files request) = None ->
  generate_caption_api env request w = (Raise bad_request_key, w) /\
  new_calls w (snd (generate_caption_api env request w)) = [] /\
  (forall image max_length num_beams,
     exists calls,
       new_calls w (snd (generate_caption env image max_length num_beams w))
       = Call_Image_open image :: calls).
Proof.
  intros Hget.
  assert (E : generate_caption_api env request w = (Raise bad_request_key, w)).
  { unfold generate_caption_api, request_files_getitem, bind, raise.
    rewrite Hget. reflexivity. }
  split; [exact E | split].
  - rewrite E. simpl. apply new_calls_app. symmetry. apply app_nil_r.
  - intros image max_length num_beams.
    unfold_app.
    repeat call_step; eexists; apply new_calls_app; simpl;
      rewrite <- ?app_assoc; simpl; reflexivity.
Qed.

(** ** The click handler *)

(** C4.  An exception (an instance of [Exception]) raised while the
    features are extracted or, after that, while the caption is generated,
    does not leave the click handler: the handler returns normally and
    the page has gained the error message with the exception's text, and
    nothing else. *)
Theorem on_click_catches (image : File) (w : World) (e : PyExc) :
  is_Exception (exc_class e) = true ->
  fst (extract_features env image w) = Raise e \/
  (exists features w1,
     extract_features env image w = (Return features, w1) /\
     fst (generate_caption env image default_max_length default_num_beams w1)
       = Raise e) ->
  fst (on_click env image w) = Return tt /\
  page (snd (on_click env image w)) =
    (page w ++ [El_error ("An error occurred: " ++ exc_str e)])%list.
Proof.
  intros Hexc Hraise. rewrite on_click_run.
  destruct Hraise as [Hfeat | (features & w1 & Hfeat & Hcap)].
  - destruct (extract_features env image w) as [[l|e0] w1]; simpl in Hfeat;
      [discriminate Hfeat | inversion Hfeat; subst].
    rewrite Hexc. split; reflexivity.
  - rewrite Hfeat.
    destruct (generate_caption env image default_max_length default_num_beams
                w1) as [[c|e0] w2]; simpl in Hcap;
      [discriminate Hcap | inversion Hcap; subst].
    rewrite Hexc. split; reflexivity.
Qed.

(** C7.  When the click handler's call of [generate_caption] returns a
    caption, the handler puts the heading with the caption in upper case
    on the page; when the route's call returns a caption, the JSON body
    of the response holds that caption as it was generated. *)
Theorem caption_upper_on_page_plain_in_json (request : Request) (image : File)
  (w : World) (features : Logits) (w1 : World) (caption : string)
  (w2 : World) (w_http : World) (caption_http : string) (w_http' : World) :
  extract_features env image w = (Return features, w1) ->
  generate_caption env image default_max_length default_num_beams w1
    = (Return caption, w2) ->
  multidict_get "image" (files request) = Some image ->
  generate_caption env image default_max_length default_num_beams w_http
    = (Return caption_http, w_http') ->
  on_click env image w =
    (Return tt,
     set_page
       (page w ++
        [El_markdown
           ("<h2 style='font-weight:bold; font-size:32px; color:#0033cc;'>"
            ++ str_upper env caption ++ "</h2>") true]) w2) /\
  fst (generate_caption_api env request w_http) =
    Return (jsonify (MCons "caption" (JString caption_http) MNil)).
Proof.
  intros Hfeat Hcap Hget Hhttp. split.
  - rewrite on_click_run, Hfeat, Hcap. reflexivity.
  - rewrite (generate_caption_api_run request image w_http Hget), Hhttp.
    reflexivity.
Qed.


End Properties.

(** ** The two models side by side *)

Section TwoModels.

Context {Img Tensor Logits LibState : Type}.
Variable env : @Env Img Tensor Logits LibState.

Local Abbreviation World := (@World Img Tensor LibState).

(** With another classification model that returns or raises as the
    first one does and leaves the same library state, [extract_features]
    leaves the same world and returns or raises alike. *)
Lemma extract_features_same_but_value
  (m : Tensor -> LibState -> Outcome (@ImageClassifierOutput Logits) * LibState)
  (image : File) (w : World) :
  (forall x s, same_but_value (convnext_model env x s) (m x s)) ->
  snd (extract_features (with_convnext_model env m) image w) =
  snd (extract_features env image w) /\
  match fst (extract_features (with_convnext_model env m) image w),
        fst (extract_features env image w) with
  | Return _, Return _ => True
  | Raise e1, Raise e2 => e1 = e2
  | _, _ => False
  end.
Proof.
  intros Hm. unfold_app. unfold with_convnext_model, device. simpl.
  destruct (Image_open env image (lib_state w)) as [[opened|e] s1]; simpl;
    [|split; reflexivity].
  destruct (Image_convert env opened "RGB" s1) as [[img|e] s2]; simpl;
    [|split; reflexivity].
  destruct (convnext_processor env img "pt" s2) as [[x|e] s3]; simpl;
    [|split; reflexivity].
  destruct (BatchFeature_to env x (if cuda_is_available env then "cuda" else "cpu") s3)
    as [[inputs|e] s4]; simpl; [|split; reflexivity].
  specialize (Hm inputs s4). unfold same_but_value in Hm.
  destruct (convnext_model env inputs s4) as [[o1|e1] t1],
    (m inputs s4) as [[o2|e2] t2]; simpl in *;
    destruct Hm as [Hs Hv]; subst; try contradiction; split; reflexivity.
Qed.

(** C9.  The logits do not reach the caption.  With another
    classification model, whose forward pass returns other values (and
    returns or raises as the first one does, leaving the same library
    state), the click handler does the same: the same outcome, the same
    page with the same caption on it, the same calls. *)
Theorem caption_independent_of_features
  (m : Tensor -> LibState -> Outcome (@ImageClassifierOutput Logits) * LibState)
  (image : File) (w : World) :
  (forall x s, same_but_value (convnext_model env x s) (m x s)) ->
  on_click (with_convnext_model env m) image w = on_click env image w.
Proof.
  intros Hm.
  rewrite !on_click_run.
  destruct (extract_features_same_but_value m image w Hm) as [Hw Hv].
  destruct (extract_features (with_convnext_model env m) image w)
    as [[l1|e1] w1],
    (extract_features env image w) as [[l2|e2] w2];
    simpl in Hw, Hv; subst; try contradiction; reflexivity.
Qed.

(** C8.  Each model gets what its own preprocessor made of the image.  In
    a run of [extract_features] followed by [generate_caption], both
    successful, the first has opened the file, converted the image, given
    it to the classification model's preprocessor and the result (moved
    to the device) to the classification model; the second has opened
    the file again, converted the image, given it to the captioning
    model's preprocessor and the result (moved to the device) to
    [generate].  Changing the preprocessor of one model changes nothing
    in the function that works with the other. *)
Theorem preprocessing_is_per_model (image : File) (max_length num_beams : Z)
  (w : World) (features : Logits) (w1 : World) (caption : string)
  (w2 : World) :
  extract_features env image w = (Return features, w1) ->
  generate_caption env image max_length num_beams w1 = (Return caption, w2) ->
  (exists opened img processed inputs s s' s'',
     convnext_processor env img "pt" s = (Return processed, s') /\
     BatchFeature_to env processed (device env) s' = (Return inputs, s'') /\
     new_calls w w1 =
       [Call_Image_open image; Call_convert opened "RGB";
        Call_processor ConvNext img "pt"; Call_to processed (device env);
        Call_forward inputs false]) /\
  (exists opened img processed inputs ids s s' s'',
     blip_processor env img "pt" s = (Return processed, s') /\
     BatchFeature_to env processed (device env) s' = (Return inputs, s'') /\
     new_calls w1 w2 =
       [Call_Image_open image; Call_convert opened "RGB";
        Call_processor Blip img "pt"; Call_to processed (device env);
        Call_generate inputs max_length num_beams true false;
        Call_batch_decode ids true]) /\
  (forall p,
     generate_caption (with_convnext_processor env p) image max_length
       num_beams w1
     = generate_caption env image max_length num_beams w1) /\
  (forall p,
     extract_features (with_blip_processor env p) image w
     = extract_features env image w).
Proof.
  intros Hfeat Hcap.
  apply extract_features_Return_inv in Hfeat.
  destruct Hfeat as (o & s1 & img & s2 & x & s3 & inp & s4 & out & s5
                     & _ & _ & Hproc & Hto & _ & _ & Hw1).
  apply generate_caption_Return_inv in Hcap.
  destruct Hcap as (o' & t1 & img' & t2 & x' & t3 & inp' & t4 & ids & t5
                    & dec & t6 & _ & _ & Hproc' & Hto' & _ & _ & _ & Hw2).
  conjs.
  - exists o, img, x, inp, s2, s3, s4. conjs; try assumption.
    apply new_calls_app. rewrite Hw1. reflexivity.
  - exists o', img', x', inp', ids, t2, t3, t4. conjs; try assumption.
    apply new_calls_app. rewrite Hw2. reflexivity.
  - intros p. reflexivity.
  - intros p. reflexivity.
Qed.

End TwoModels.

(** * The functions on concrete inputs *)

(** The demo libraries are stateless on the caption path and keep to
    [max_new_tokens], with one prompt token. *)
Lemma demo_stateless : caption_path_stateless Demo.env.
Proof. constructor; intros; intros s s'; reflexivity. Qed.

Lemma demo_honours_max_new_tokens : honours_max_new_tokens Demo.env 1.
Proof.
  intros x n k es s ids s' H. simpl in H.
  unfold Demo.generate, Demo.beam_search in H.
  destruct (n <=? 0) eqn:Hn; [discriminate H|].
  destruct (8 <? List.length x)%nat; [discriminate H|].
  inversion H; subst; clear H.
  constructor; [|constructor].
  unfold new_tokens. simpl List.length. rewrite length_firstn.
  apply Z.leb_gt in Hn. lia.
Qed.

(** With a model that samples, the second call of [generate_caption]
    returns another caption than the first: determinism does rest on the
    libraries. *)
Remark sampling_is_not_deterministic :
  fst (generate_caption Demo.sampling_env Demo.dog 50 5 Demo.w0) = Return "a" /\
  fst (generate_caption Demo.sampling_env Demo.dog 50 5
         (snd (generate_caption Demo.sampling_env Demo.dog 50 5 Demo.w0)))
  = Return "sitting".
Proof. split; reflexivity. Qed.

(** The scenario of the specification: the photo of a dog. *)
Example dog_in_the_grass :
  page (snd (upload_block Demo.env Demo.draw (Some Demo.dog) true Demo.w0)) =
    [El_image Demo.dog "Uploaded Image";
     El_write "Click below to generate a caption for your image.";
     El_button "GENERATE CAPTION";
     El_markdown
       "<h2 style='font-weight:bold; font-size:32px; color:#0033cc;'>A DOG SITTING IN THE GRASS</h2>"
       true] /\
  fst (generate_caption_api Demo.env (Demo.post Demo.dog) Demo.w0) =
    Return (mkResponse 200 "application/json"
              (JObject
                 (MCons "caption" (JString "a dog sitting in the grass") MNil))).
Proof. split; reflexivity. Qed.

(** Without a click, and without an image, no model runs. *)
Example no_click_no_inference :
  trace (snd (upload_block Demo.env Demo.draw (Some Demo.dog) false Demo.w0))
    = [] /\
  upload_block Demo.env Demo.draw None true Demo.w0 = (Return tt, Demo.w0).
Proof. split; reflexivity. Qed.

(** An exception that is not an [Exception] leaves the click handler. *)
Remark on_click_lets_base_exceptions_through :
  forall {Img Tensor Logits LibState : Type}
    (env : @Env Img Tensor Logits LibState) (image : File)
    (w : @World Img Tensor LibState) (e : PyExc),
    is_Exception (exc_class e) = false ->
    fst (extract_features env image w) = Raise e ->
    fst (on_click env image w) = Raise e.
Proof.
  intros Img Tensor Logits LibState env image w e Hexc Hfeat.
  rewrite on_click_run.
  destruct (extract_features env image w) as [[l|e0] w1]; simpl in Hfeat;
    [discriminate Hfeat | inversion Hfeat; subst].
  rewrite Hexc. reflexivity.
Qed.

(** ** Instances of the theorems *)

Lemma generate_caption_deterministic_witness :
  caption_path_stateless Demo.env /\
  fst (generate_caption Demo.env Demo.dog 50 5 Demo.w0) =
  fst (generate_caption Demo.env Demo.dog 50 5
         (mkWorld 7%nat false [] [El_write "hello"])) /\
  fst (generate_caption Demo.env Demo.dog 50 5
         (snd (generate_caption Demo.env Demo.dog 50 5 Demo.w0))) =
  fst (generate_caption Demo.env Demo.dog 50 5 Demo.w0).
Proof.
  assert (H : caption_path_stateless Demo.env)
    by (constructor; intros; intros s s'; reflexivity).
  split; [exact H|].
  exact (generate_caption_deterministic Demo.env Demo.dog 50 5 Demo.w0
           (mkWorld 7%nat false [] [El_write "hello"]) H).
Defined.

Lemma generate_caption_within_budget_witness :
  honours_max_new_tokens Demo.env 1 /\
  generate_caption Demo.env Demo.dog 3 5 Demo.w0 =
    (Return "a dog sitting",
     snd (generate_caption Demo.env Demo.dog 3 5 Demo.w0)) /\
  exists opened img processed inputs ids decoded s s' s'',
    blip_model_generate Demo.env inputs 3 5 true s = (Return ids, s') /\
    blip_processor_batch_decode Demo.env ids true s' = (Return decoded, s'') /\
    hd_error decoded = Some "a dog sitting" /\
    new_calls Demo.w0 (snd (generate_caption Demo.env Demo.dog 3 5 Demo.w0)) =
      [Call_Image_open Demo.dog; Call_convert opened "RGB";
       Call_processor Blip img "pt"; Call_to processed (device Demo.env);
       Call_generate inputs 3 5 true false; Call_batch_decode ids true] /\
    Forall (fun seq => new_tokens 1 seq <= 3) ids.
Proof.
  split; [exact demo_honours_max_new_tokens | split; [reflexivity|]].
  exact (proj1 (generate_caption_within_budget Demo.env 1 Demo.dog 3 5 Demo.w0
                  "a dog sitting"
                  (snd (generate_caption Demo.env Demo.dog 3 5 Demo.w0))
                  demo_honours_max_new_tokens eq_refl)).
Defined.

Lemma generate_caption_api_success_witness :
  multidict_get "image" (files (Demo.post Demo.dog)) = Some Demo.dog /\
  fst (generate_caption Demo.env Demo.dog default_max_length default_num_beams
         Demo.w0) = Return "a dog sitting in the grass" /\
  fst (generate_caption_api Demo.env (Demo.post Demo.dog) Demo.w0) =
    Return (mkResponse 200 "application/json"
              (JObject
                 (MCons "caption" (JString "a dog sitting in the grass") MNil))).
Proof.
  split; [reflexivity | split; [reflexivity|]].
  rewrite (proj1 (generate_caption_api_success Demo.env (Demo.post Demo.dog)
                    Demo.dog Demo.w0 _ _ eq_refl eq_refl)).
  reflexivity.
Defined.

Lemma generate_caption_api_propagates_witness :
  multidict_get "image" (files (Demo.post Demo.text_file))
    = Some Demo.text_file /\
  Image_open Demo.env Demo.text_file (lib_state Demo.w0) =
    (Raise (mkExc UnidentifiedImageError "cannot identify image file"), 1%nat) /\
  generate_caption_api Demo.env (Demo.post Demo.text_file) Demo.w0 =
    (Raise (mkExc UnidentifiedImageError "cannot identify image file"),
     mkWorld 1%nat true [Call_Image_open Demo.text_file] []).
Proof.
  split; [reflexivity | split; [reflexivity|]].
  exact (proj1 (generate_caption_api_propagates Demo.env
                  (Demo.post Demo.text_file) Demo.text_file Demo.w0
                  (mkExc UnidentifiedImageError "cannot identify image file")
                  1%nat eq_refl eq_refl)).
Defined.

Lemma generate_caption_api_missing_field_witness :
  multidict_get "image" (files (mkRequest [("file", Demo.dog)])) = None /\
  generate_caption_api Demo.env (mkRequest [("file", Demo.dog)]) Demo.w0 =
    (Raise bad_request_key, Demo.w0).
Proof.
  split; [reflexivity|].
  exact (proj1 (generate_caption_api_missing_field Demo.env
                  (mkRequest [("file", Demo.dog)]) Demo.w0 eq_refl)).
Defined.

Lemma on_click_catches_witness :
  is_Exception UnidentifiedImageError = true /\
  fst (extract_features Demo.env Demo.text_file Demo.w0) =
    Raise (mkExc UnidentifiedImageError "cannot identify image file") /\
  fst (on_click Demo.env Demo.text_file Demo.w0) = Return tt /\
  page (snd (on_click Demo.env Demo.text_file Demo.w0)) =
    [El_error "An error occurred: cannot identify image file"].
Proof.
  split; [reflexivity | split; [reflexivity|]].
  exact (on_click_catches Demo.env Demo.text_file Demo.w0
           (mkExc UnidentifiedImageError "cannot identify image file")
           eq_refl (or_introl eq_refl)).
Defined.

Lemma caption_upper_on_page_plain_in_json_witness :
  extract_features Demo.env Demo.dog Demo.w0
    = (Return [-753], Demo.after_features) /\
  generate_caption Demo.env Demo.dog default_max_length default_num_beams
    Demo.after_features
    = (Return "a dog sitting in the grass", Demo.after_caption) /\
  multidict_get "image" (files (Demo.post Demo.dog)) = Some Demo.dog /\
  page (snd (on_click Demo.env Demo.dog Demo.w0)) =
    [El_markdown
       "<h2 style='font-weight:bold; font-size:32px; color:#0033cc;'>A DOG SITTING IN THE GRASS</h2>"
       true] /\
  fst (generate_caption_api Demo.env (Demo.post Demo.dog) Demo.w0) =
    Return (jsonify (MCons "caption" (JString "a dog sitting in the grass")
                       MNil)).
Proof.
  destruct (caption_upper_on_page_plain_in_json Demo.env (Demo.post Demo.dog)
              Demo.dog Demo.w0 [-753] Demo.after_features
              "a dog sitting in the grass" Demo.after_caption Demo.w0
              "a dog sitting in the grass"
              (snd (generate_caption Demo.env Demo.dog default_max_length
                      default_num_beams Demo.w0))
              eq_refl eq_refl eq_refl eq_refl) as [Hpage Hjson].
  split; [reflexivity | split; [reflexivity | split; [reflexivity|]]].
  split; [rewrite Hpage; reflexivity | exact Hjson].
Defined.


Lemma preprocessing_is_per_model_witness :
  extract_features Demo.env Demo.dog Demo.w0
    = (Return [-753], Demo.after_features) /\
  generate_caption Demo.env Demo.dog default_max_length default_num_beams
    Demo.after_features
    = (Return "a dog sitting in the grass", Demo.after_caption) /\
  (exists opened img processed inputs s s' s'',
     convnext_processor Demo.env img "pt" s = (Return processed, s') /\
     BatchFeature_to Demo.env processed (device Demo.env) s'
       = (Return inputs, s'') /\
     new_calls Demo.w0 Demo.after_features =
       [Call_Image_open Demo.dog; Call_convert opened "RGB";
        Call_processor ConvNext img "pt"; Call_to processed (device Demo.env);
        Call_forward inputs false]) /\
  (exists opened img processed inputs ids s s' s'',
     blip_processor Demo.env img "pt" s = (Return processed, s') /\
     BatchFeature_to Demo.env processed (device Demo.env) s'
       = (Return inputs, s'') /\
     new_calls Demo.after_features Demo.after_caption =
       [Call_Image_open Demo.dog; Call_convert opened "RGB";
        Call_processor Blip img "pt"; Call_to processed (device Demo.env);
        Call_generate inputs default_max_length default_num_beams true false;
        Call_batch_decode ids true]).
Proof.
  split; [reflexivity | split; [reflexivity|]].
  destruct (preprocessing_is_per_model Demo.env Demo.dog default_max_length
              default_num_beams Demo.w0 [-753] Demo.after_features
              "a dog sitting in the grass" Demo.after_caption
              eq_refl eq_refl) as (H1 & H2 & _).
  split; [exact H1 | exact H2].
Defined.

Lemma caption_independent_of_features_witness :
  (forall x s,
     same_but_value (convnext_model Demo.env x s) (Demo.other_classifier x s)) /\
  on_click (with_convnext_model Demo.env Demo.other_classifier) Demo.dog Demo.w0
  = on_click Demo.env Demo.dog Demo.w0.
Proof.
  assert (H : forall x s,
             same_but_value (convnext_model Demo.env x s)
               (Demo.other_classifier x s))
    by (intros x s; split; [reflexivity | exact I]).
  split; [exact H|].
  exact (caption_independent_of_features Demo.env Demo.other_classifier
           Demo.dog Demo.w0 H).
Defined.

(** ** The route on a photo that decodes and cannot be captioned *)

(** C2 as it is stated fails: the photo [Demo.large] decodes, and the
    handler raises what [generate] raises on it instead of returning a
    response. *)
Lemma generate_caption_api_decodable_without_response :
  ~ (forall (env : @Env (list Z) (list Z) (list Z) nat) (request : Request)
       (image : File) (w : @World (list Z) (list Z) nat),
       multidict_get "image" (files request) = Some image ->
       decodable env image (lib_state w) ->
       exists caption w',
         generate_caption_api env request w =
           (Return (mkResponse 200 "application/json"
                      (JObject (MCons "caption" (JString caption) MNil))),
            w')).
Proof.
  intros H.
  destruct (H Demo.env (Demo.post Demo.large) Demo.large Demo.w0 eq_refl)
    as (caption & w' & Hresp).
  - exists [0; 1; 2; 3; 4; 5; 0; 1; 2], 1%nat, [0; 1; 2; 3; 4; 5; 0; 1; 2],
      2%nat.
    split; reflexivity.
  - vm_compute in Hresp. discriminate Hresp.
Qed.

(** * More on the functions of [app.py] *)

Section Calls.

Context {Img Tensor Logits LibState : Type}.
Variable env : @Env Img Tensor Logits LibState.

Local Abbreviation World := (@World Img Tensor LibState).

Ltac shapes :=
  repeat (apply Forall_cons || apply Forall_nil); simpl; repeat split.

Lemma generate_caption_calls (image : File) (max_length num_beams : Z)
  (w : World) :
  exists l,
    trace (snd (generate_caption env image max_length num_beams w))
    = (trace w ++ l)%list /\
    Forall (caption_call env max_length num_beams) l.
Proof.
  unfold_app.
  repeat call_step; eexists;
    (split; [rewrite <- ?app_assoc; simpl; reflexivity | shapes]).
Qed.

Lemma extract_features_calls (image : File) (w : World) :
  exists l,
    trace (snd (extract_features env image w)) = (trace w ++ l)%list /\
    Forall (feature_call env) l.
Proof.
  unfold_app.
  repeat call_step; eexists;
    (split; [rewrite <- ?app_assoc; simpl; reflexivity | shapes]).
Qed.

Lemma new_calls_trans (w w1 w2 : World) (l1 l2 : list Call) :
  trace w1 = (trace w ++ l1)%list ->
  trace w2 = (trace w1 ++ l2)%list ->
  new_calls w w2 = (l1 ++ l2)%list.
Proof.
  intros E1 E2. apply new_calls_app. rewrite E2, E1.
  symmetry. apply app_assoc.
Qed.

(** What the click handler leaves of the world, but for the page: what
    the last function it called has left. *)
Lemma on_click_trace (image : File) (w : World) :
  trace (snd (on_click env image w)) =
  match extract_features env image w with
  | (Raise _, w1) => trace w1
  | (Return _, w1) =>
      trace (snd (generate_caption env image default_max_length
                    default_num_beams w1))
  end.
Proof.
  rewrite on_click_run.
  destruct (extract_features env image w) as [[l|e] w1].
  - destruct (generate_caption env image default_max_length
                default_num_beams w1) as [[c|e] w2]; simpl;
      [reflexivity | destruct (is_Exception (exc_class e)); reflexivity].
  - destruct (is_Exception (exc_class e)); reflexivity.
Qed.

(** X1.  Inference tracks no gradients.  Whatever the gradient mode of the
    world [extract_features] or [generate_caption] is called in, the
    forward pass of the classification model and the beam search of the
    captioning model are called with gradients off. *)
Theorem inference_without_gradients (image : File) (max_length num_beams : Z)
  (w : World) :
  Forall without_grad (new_calls w (snd (extract_features env image w))) /\
  Forall without_grad
    (new_calls w (snd (generate_caption env image max_length num_beams w))).
Proof.
  split.
  - destruct (extract_features_calls image w) as (l & Hl & Hshape).
    rewrite (new_calls_app _ _ _ Hl).
    eapply Forall_impl; [|exact Hshape].
    intros [ | | | | | | ]; simpl; tauto.
  - destruct (generate_caption_calls image max_length num_beams w)
      as (l & Hl & Hshape).
    rewrite (new_calls_app _ _ _ Hl).
    eapply Forall_impl; [|exact Hshape].
    intros [ | | | | | | ]; simpl; tauto.
Qed.

(** X2.  The two [with torch.no_grad()] blocks give the gradient mode
    back: after [extract_features] and after [generate_caption], whether
    they return or raise, the gradient mode is the one they were called
    in, the page is untouched and the trace has only grown. *)
Theorem gradient_mode_restored (image : File) (max_length num_beams : Z)
  (w : World) :
  let w1 := snd (extract_features env image w) in
  let w2 := snd (generate_caption env image max_length num_beams w) in
  grad_enabled w1 = grad_enabled w /\ page w1 = page w /\
  firstn (List.length (trace w)) (trace w1) = trace w /\
  grad_enabled w2 = grad_enabled w /\ page w2 = page w /\
  firstn (List.length (trace w)) (trace w2) = trace w.
Proof.
  simpl.
  rewrite (extract_features_frame env image w).
  rewrite (generate_caption_frame env image max_length num_beams w).
  destruct (extract_features env image (init (lib_state w))) as [r1 v1].
  destruct (generate_caption env image max_length num_beams
              (init (lib_state w))) as [r2 v2].
  simpl.
  assert (P : forall l : list Call,
             firstn (List.length (trace w)) (trace w ++ l) = trace w).
  { intros l. rewrite firstn_app, firstn_all, Nat.sub_diag. simpl.
    apply app_nil_r. }
  rewrite !P. repeat split.
Qed.

(** X3.  The route works on the caption path only and with the default
    parameters.  For every request, every library call the handler makes
    is one of the caption path with [max_new_tokens] 50, five beams,
    early stopping and no gradients; it never runs the classification
    model or its preprocessor, and it puts nothing on the page. *)
Theorem generate_caption_api_calls (request : Request) (w : World) :
  Forall (caption_call env 50 5)
    (new_calls w (snd (generate_caption_api env request w))) /\
  page (snd (generate_caption_api env request w)) = page w.
Proof.
  destruct (multidict_get "image" (files request)) as [image|] eqn:Hget.
  - rewrite (generate_caption_api_run env request image w Hget).
    destruct (generate_caption_calls image default_max_length
                default_num_beams w) as (l & Hl & Hshape).
    pose proof (generate_caption_frame env image default_max_length
                  default_num_beams w) as Hframe.
    destruct (generate_caption env image default_max_length default_num_beams
                (init (lib_state w))) as [r0 v0].
    destruct (generate_caption env image default_max_length default_num_beams
                w) as [[c|e] w']; simpl in *;
      inversion Hframe; subst; simpl;
      (split; [|reflexivity]);
      rewrite (new_calls_app w _ l Hl); exact Hshape.
  - unfold generate_caption_api, request_files_getitem, bind, raise.
    rewrite Hget. simpl. split; [|reflexivity].
    rewrite (new_calls_app w w []); [constructor|].
    symmetry. apply app_nil_r.
Qed.

(** X4.  The click handler runs the feature path first and the caption
    path after it, the latter with the default parameters: its calls are
    calls of the feature path followed by calls of the caption path with
    [max_new_tokens] 50 and five beams. *)
Theorem on_click_calls (image : File) (w : World) :
  exists l1 l2,
    new_calls w (snd (on_click env image w)) = (l1 ++ l2)%list /\
    Forall (feature_call env) l1 /\
    Forall (caption_call env 50 5) l2.
Proof.
  destruct (extract_features_calls image w) as (l1 & Hl1 & Hs1).
  pose proof (on_click_trace image w) as Ht.
  destruct (extract_features env image w) as [[f|e] w1]; simpl in *.
  - destruct (generate_caption_calls image default_max_length
                default_num_beams w1) as (l2 & Hl2 & Hs2).
    exists l1, l2. split; [|split; assumption].
    apply (new_calls_trans w w1 _ l1 l2 Hl1). rewrite Ht. exact Hl2.
  - exists l1, []. split; [|split; [assumption | constructor]].
    rewrite app_nil_r. apply new_calls_app. rewrite Ht. exact Hl1.
Qed.

(** X5.  In the click handler a failure of the feature path ends the
    run: when [extract_features] raises, the handler makes no call of the
    caption path, although the caption does not depend on the features.
    Its calls are those [extract_features] made, and it leaves the
    library state [extract_features] left. *)
Theorem on_click_stops_after_feature_failure (image : File) (w : World)
  (e : PyExc) :
  fst (extract_features env image w) = Raise e ->
  new_calls w (snd (on_click env image w)) =
  new_calls w (snd (extract_features env image w)) /\
  Forall (feature_call env) (new_calls w (snd (on_click env image w))) /\
  lib_state (snd (on_click env image w)) =
  lib_state (snd (extract_features env image w)).
Proof.
  intros Hraise.
  destruct (extract_features_calls image w) as (l1 & Hl1 & Hs1).
  pose proof (on_click_trace image w) as Ht.
  pose proof (on_click_run env image w) as Hrun.
  destruct (extract_features env image w) as [[f|e0] w1]; simpl in *;
    [discriminate Hraise|].
  assert (Hn : new_calls w (snd (on_click env image w)) = l1)
    by (apply new_calls_app; rewrite Ht; exact Hl1).
  rewrite Hn, (new_calls_app w w1 l1 Hl1).
  split; [reflexivity | split; [exact Hs1|]].
  rewrite Hrun. destruct (is_Exception (exc_class e0)); reflexivity.
Qed.

(** X6.  No [Exception] leaves the click handler, and no spinner stays
    on the page.  When the handler returns, the page has gained exactly
    one element: the heading with an upper-case caption, or the message
    of an [Exception].  When the handler raises, what it raises is not an
    [Exception] and the page is as it was. *)
Theorem on_click_page (image : File) (w : World) :
  match fst (on_click env image w) with
  | Return _ =>
      exists el,
        page (snd (on_click env image w)) = (page w ++ [el])%list /\
        ((exists caption,
            el = El_markdown (caption_heading (str_upper env caption)) true) \/
         (exists e,
            is_Exception (exc_class e) = true /\
            el = El_error ("An error occurred: " ++ exc_str e)))
  | Raise e =>
      is_Exception (exc_class e) = false /\
      page (snd (on_click env image w)) = page w
  end.
Proof.
  rewrite on_click_run.
  pose proof (extract_features_frame env image w) as Hf.
  destruct (extract_features env image (init (lib_state w))) as [r0 v0].
  destruct (extract_features env image w) as [[f|e] w1];
    inversion Hf; subst; clear Hf.
  - match goal with
    | |- context [generate_caption env image ?a ?b ?v] =>
        pose proof (generate_caption_frame env image a b v) as Hg;
        destruct (generate_caption env image a b (init (lib_state v)))
          as [r1 v1];
        destruct (generate_caption env image a b v) as [[c|e] w2];
        inversion Hg; subst; clear Hg
    end; simpl.
    + eexists. split; [reflexivity|].
      left. eexists. reflexivity.
    + destruct (is_Exception (exc_class e)) eqn:He; simpl.
      * eexists. split; [reflexivity|].
        right. exists e. split; [exact He | reflexivity].
      * split; [exact He | reflexivity].
  - destruct (is_Exception (exc_class e)) eqn:He; simpl.
    + eexists. split; [reflexivity|].
      right. exists e. split; [exact He | reflexivity].
    + split; [exact He | reflexivity].
Qed.

(** X7.  No upload, or no click: no inference.  Without an uploaded image
    the block does nothing.  With an image and without a click, no call
    of the two inference paths is made; when [st.image] can decode the
    upload the block returns with the image, the prompt and the button
    drawn, and when [st.image] raises, its exception leaves the block
    with nothing drawn. *)
Theorem upload_block_idle
  (st_image_decode : File -> LibState -> Outcome unit * LibState)
  (uploaded_image : option File) (clicked : bool) (w : World) :
  uploaded_image = None \/ clicked = false ->
  trace (snd (upload_block env st_image_decode uploaded_image clicked w))
    = trace w /\
  match uploaded_image with
  | None =>
      upload_block env st_image_decode uploaded_image clicked w = (Return tt, w)
  | Some image =>
      match st_image_decode image (lib_state w) with
      | (Return _, _) =>
          fst (upload_block env st_image_decode uploaded_image clicked w)
            = Return tt /\
          page (snd (upload_block env st_image_decode uploaded_image clicked w))
          = (page w ++
             [El_image image "Uploaded Image";
              El_write "Click below to generate a caption for your image.";
              El_button "GENERATE CAPTION"])%list
      | (Raise e, _) =>
          fst (upload_block env st_image_decode uploaded_image clicked w)
            = Raise e /\
          page (snd (upload_block env st_image_decode uploaded_image clicked w))
          = page w
      end
  end.
Proof.
  intros [Hnone | Hclick]; subst.
  - split; reflexivity.
  - destruct uploaded_image as [image|]; [|split; reflexivity].
    unfold upload_block, bind, st_image, st_write, st_button, bind, show, ret.
    destruct (st_image_decode image (lib_state w)) as [[u|e] s]; simpl.
    + rewrite <- !app_assoc. repeat split.
    + repeat split.
Qed.

(** X8.  [batch_decode(...)[0]] on an empty batch.  When every library
    call of [generate_caption] returns and the decoded batch is empty,
    [generate_caption] raises [IndexError]; in the route that exception
    leaves the handler. *)
Theorem generate_caption_empty_decode (request : Request) (image : File)
  (w : World) (opened img : Img) (processed inputs : Tensor)
  (ids : list (list Z)) (s1 s2 s3 s4 s5 s6 : LibState) :
  Image_open env image (lib_state w) = (Return opened, s1) ->
  Image_convert env opened "RGB" s1 = (Return img, s2) ->
  blip_processor env img "pt" s2 = (Return processed, s3) ->
  BatchFeature_to env processed (device env) s3 = (Return inputs, s4) ->
  blip_model_generate env inputs default_max_length default_num_beams true s4
    = (Return ids, s5) ->
  blip_processor_batch_decode env ids true s5 = (Return [], s6) ->
  multidict_get "image" (files request) = Some image ->
  fst (generate_caption env image default_max_length default_num_beams w)
    = Raise (mkExc IndexError "list index out of range") /\
  fst (generate_caption_api env request w)
    = Raise (mkExc IndexError "list index out of range").
Proof.
  intros H1 H2 H3 H4 H5 H6 Hget.
  assert (E : fst (generate_caption env image default_max_length
                     default_num_beams w)
              = Raise (mkExc IndexError "list index out of range")).
  { unfold_app. rewrite H1. simpl. rewrite H2. simpl. rewrite H3. simpl.
    rewrite H4. simpl. rewrite H5. simpl. rewrite H6. reflexivity. }
  split; [exact E|].
  rewrite (generate_caption_api_run env request image w Hget).
  destruct (generate_caption env image default_max_length default_num_beams w)
    as [[c|e] w']; simpl in *;
    [discriminate E | inversion E; reflexivity].
Qed.

Ltac raised_by :=
  repeat first [ solve [left; do 3 eexists; eassumption]
               | solve [left; do 2 eexists; eassumption]
               | right ];
  try solve [do 3 eexists; eassumption];
  try reflexivity.

(** X9.  [generate_caption] raises nothing of its own but the
    [IndexError] of [[0]], and it passes exceptions on unchanged: what it
    raises was raised by one of the six library calls of the caption
    path, on the arguments the function gives it, or is that
    [IndexError]. *)
Theorem generate_caption_raises (image : File) (max_length num_beams : Z)
  (w : World) (e : PyExc) :
  fst (generate_caption env image max_length num_beams w) = Raise e ->
  (exists s s', Image_open env image s = (Raise e, s')) \/
  (exists img s s', Image_convert env img "RGB" s = (Raise e, s')) \/
  (exists img s s', blip_processor env img "pt" s = (Raise e, s')) \/
  (exists x s s', BatchFeature_to env x (device env) s = (Raise e, s')) \/
  (exists x s s',
     blip_model_generate env x max_length num_beams true s = (Raise e, s')) \/
  (exists ids s s',
     blip_processor_batch_decode env ids true s = (Raise e, s')) \/
  e = mkExc IndexError "list index out of range".
Proof.
  unfold_app.
  repeat call_step; intros H; try discriminate H;
    inversion H; subst; clear H; raised_by.
Qed.

(** X10.  [extract_features] raises nothing of its own: what it raises
    was raised by one of the five library calls of the feature path. *)
Theorem extract_features_raises (image : File) (w : World) (e : PyExc) :
  fst (extract_features env image w) = Raise e ->
  (exists s s', Image_open env image s = (Raise e, s')) \/
  (exists img s s', Image_convert env img "RGB" s = (Raise e, s')) \/
  (exists img s s', convnext_processor env img "pt" s = (Raise e, s')) \/
  (exists x s s', BatchFeature_to env x (device env) s = (Raise e, s')) \/
  (exists x s s', convnext_model env x s = (Raise e, s')).
Proof.
  unfold_app.
  repeat call_step; intros H; try discriminate H;
    inversion H; subst; clear H; raised_by.
Qed.

End Calls.

(** ** Instances on the failing libraries *)

(** With the classification model out of memory the page shows the error,
    while the route still returns the caption of the same photo. *)
Example classifier_failure_page_and_route :
  page (snd (on_click Faulty.classifier_env Demo.dog Demo.w0)) =
    [El_error "An error occurred: CUDA out of memory"] /\
  fst (generate_caption_api Faulty.classifier_env (Demo.post Demo.dog) Demo.w0)
  = Return (jsonify (MCons "caption" (JString "a dog sitting in the grass")
                       MNil)).
Proof. split; reflexivity. Qed.

(** Gradients are off in the model calls also when the world tracks
    them, and the mode is back afterwards. *)
Example gradients_off_then_back :
  new_calls Faulty.w_grad
    (snd (extract_features Demo.env Demo.dog Faulty.w_grad)) =
  new_calls Faulty.w_no_grad
    (snd (extract_features Demo.env Demo.dog Faulty.w_no_grad)) /\
  grad_enabled (snd (extract_features Demo.env Demo.dog Faulty.w_grad)) = true /\
  grad_enabled (snd (extract_features Demo.env Demo.dog Faulty.w_no_grad))
  = false.
Proof. repeat split. Qed.

Lemma on_click_stops_after_feature_failure_witness :
  fst (extract_features Faulty.classifier_env Demo.dog Demo.w0) =
    Raise (mkExc RuntimeError "CUDA out of memory") /\
  new_calls Demo.w0 (snd (on_click Faulty.classifier_env Demo.dog Demo.w0)) =
  new_calls Demo.w0
    (snd (extract_features Faulty.classifier_env Demo.dog Demo.w0)) /\
  Forall (feature_call Faulty.classifier_env)
    (new_calls Demo.w0 (snd (on_click Faulty.classifier_env Demo.dog Demo.w0)))
  /\
  lib_state (snd (on_click Faulty.classifier_env Demo.dog Demo.w0)) =
  lib_state (snd (extract_features Faulty.classifier_env Demo.dog Demo.w0)).
Proof.
  split; [reflexivity|].
  exact (on_click_stops_after_feature_failure Faulty.classifier_env Demo.dog
           Demo.w0 (mkExc RuntimeError "CUDA out of memory") eq_refl).
Defined.

Lemma upload_block_idle_witness :
  (Some Demo.text_file = None \/ false = false) /\
  trace (snd (upload_block Demo.env Demo.draw (Some Demo.text_file) false
                Demo.w0)) = [] /\
  fst (upload_block Demo.env Demo.draw (Some Demo.text_file) false Demo.w0)
    = Raise (mkExc UnidentifiedImageError "cannot identify image file") /\
  page (snd (upload_block Demo.env Demo.draw (Some Demo.text_file) false
               Demo.w0)) = [].
Proof.
  split; [right; reflexivity|].
  exact (upload_block_idle Demo.env Demo.draw (Some Demo.text_file) false
           Demo.w0 (or_intror eq_refl)).
Defined.

Lemma generate_caption_empty_decode_witness :
  blip_processor_batch_decode Faulty.decode_env [[100; 0; 1; 2; 3; 4; 5]] true
    5%nat = (Return [], 6%nat) /\
  multidict_get "image" (files (Demo.post Demo.dog)) = Some Demo.dog /\
  fst (generate_caption Faulty.decode_env Demo.dog default_max_length
         default_num_beams Demo.w0)
    = Raise (mkExc IndexError "list index out of range") /\
  fst (generate_caption_api Faulty.decode_env (Demo.post Demo.dog) Demo.w0)
    = Raise (mkExc IndexError "list index out of range").
Proof.
  split; [reflexivity | split; [reflexivity|]].
  exact (generate_caption_empty_decode Faulty.decode_env (Demo.post Demo.dog)
           Demo.dog Demo.w0 [0; 1; 2; 3; 4; 5] [0; 1; 2; 3; 4; 5]
           [0; 1; 2; 3; 4; 5] [0; 1; 2; 3; 4; 5] [[100; 0; 1; 2; 3; 4; 5]]
           1%nat 2%nat 3%nat 4%nat 5%nat 6%nat
           eq_refl eq_refl eq_refl eq_refl eq_refl eq_refl eq_refl).
Defined.

Lemma generate_caption_raises_witness :
  fst (generate_caption Demo.env Demo.large 50 5 Demo.w0) =
    Raise (mkExc RuntimeError "CUDA out of memory") /\
  ((exists s s',
      Image_open Demo.env Demo.large s =
        (Raise (mkExc RuntimeError "CUDA out of memory"), s')) \/
   (exists img s s',
      Image_convert Demo.env img "RGB" s =
        (Raise (mkExc RuntimeError "CUDA out of memory"), s')) \/
   (exists img s s',
      blip_processor Demo.env img "pt" s =
        (Raise (mkExc RuntimeError "CUDA out of memory"), s')) \/
   (exists x s s',
      BatchFeature_to Demo.env x (device Demo.env) s =
        (Raise (mkExc RuntimeError "CUDA out of memory"), s')) \/
   (exists x s s',
      blip_model_generate Demo.env x 50 5 true s =
        (Raise (mkExc RuntimeError "CUDA out of memory"), s')) \/
   (exists ids s s',
      blip_processor_batch_decode Demo.env ids true s =
        (Raise (mkExc RuntimeError "CUDA out of memory"), s')) \/
   mkExc RuntimeError "CUDA out of memory" =
     mkExc IndexError "list index out of range").
Proof.
  split; [reflexivity|].
  exact (generate_caption_raises Demo.env Demo.large 50 5 Demo.w0
           (mkExc RuntimeError "CUDA out of memory") eq_refl).
Defined.

Lemma extract_features_raises_witness :
  fst (extract_features Faulty.classifier_env Demo.dog Demo.w0) =
    Raise (mkExc RuntimeError "CUDA out of memory") /\
  ((exists s s',
      Image_open Faulty.classifier_env Demo.dog s =
        (Raise (mkExc RuntimeError "CUDA out of memory"), s')) \/
   (exists img s s',
      Image_convert Faulty.classifier_env img "RGB" s =
        (Raise (mkExc RuntimeError "CUDA out of memory"), s')) \/
   (exists img s s',
      convnext_processor Faulty.classifier_env img "pt" s =
        (Raise (mkExc RuntimeError "CUDA out of memory"), s')) \/
   (exists x s s',
      BatchFeature_to Faulty.classifier_env x (device Faulty.classifier_env) s
        = (Raise (mkExc RuntimeError "CUDA out of memory"), s')) \/
   (exists x s s',
      convnext_model Faulty.classifier_env x s =
        (Raise (mkExc RuntimeError "CUDA out of memory"), s'))).
Proof.
  split; [reflexivity|].
  exact (extract_features_raises Faulty.classifier_env Demo.dog Demo.w0
           (mkExc RuntimeError "CUDA out of memory") eq_refl).
Defined.

(** ** Where the claims on the budget and on the two entry points fail *)

(** C6 as it is stated fails: the demo library keeps to
    [max_new_tokens] and the photo of the dog decodes, and with a budget
    of zero tokens [generate] raises, so that no token sequence is
    produced and decoded. *)
Lemma generate_caption_no_sequence_for_zero_budget :
  ~ (forall (env : @Env (list Z) (list Z) (list Z) nat) (prompt : nat)
       (image : File) (max_length num_beams : Z)
       (w : @World (list Z) (list Z) nat),
       honours_max_new_tokens env prompt ->
       decodable env image (lib_state w) ->
       exists ids,
         In (Call_batch_decode ids true)
            (new_calls w
               (snd (generate_caption env image max_length num_beams w))) /\
         Forall (fun seq => new_tokens prompt seq <= max_length) ids).
Proof.
  intros H.
  destruct (H Demo.env 1%nat Demo.dog 0 5 Demo.w0 demo_honours_max_new_tokens)
    as (ids & Hin & _).
  - exists [0; 1; 2; 3; 4; 5], 1%nat, [0; 1; 2; 3; 4; 5], 2%nat.
    split; reflexivity.
  - vm_compute in Hin.
    repeat match goal with
      | H : _ \/ _ |- _ => destruct H as [H|H]
      | H : False |- _ => contradiction
      | H : _ = _ |- _ => discriminate H
      end.
Qed.


